(** * Sensor platform of the Netgear switch integration

    A shallow embedding of [custom_components/ckw_hass_gs108e/sensor.py]:
    the descriptor tables, the per-port template expansion done by
    [async_setup_entry], and the three methods of
    [NetgearRouterSensorEntity] that touch the cached value
    ([__init__], [async_added_to_hass], [async_update_device]).

    Python objects that are mutated in place (the entity, the list of
    entities, the logger, the coordinator's [data] attribute) are modelled
    by explicit state passing.  Exceptions and log records are threaded
    through a small state-and-error monad. *)

From Stdlib Require Import Ascii String.
From stdpp Require Import base option list gmap strings pretty.

Open Scope string_scope.
Open Scope Z_scope.

(** ** Python values seen by this module *)

(** Raw readings stored in the polled mapping.  The module never inspects
    them beyond the test [is None]. *)
Inductive PyVal :=
| PyNone
| PyBool (b : bool)
| PyInt (z : Z)
| PyFloat (mantissa exponent : Z)
| PyStr (s : string).

#[global] Instance PyVal_eq_dec : EqDecision PyVal.
Proof. solve_decision. Defined.

(** The exceptions that the modelled statements can raise. *)
Inductive PyExc :=
| AttributeError (msg : string)
| KeyError (msg : string)
| ValueError (msg : string).

Inductive LogLevel := DEBUG | INFO | WARNING | ERROR.

(** One call on [_LOGGER]: the level, the format string and its arguments. *)
Record LogRecord := mkLog {
  log_level : LogLevel;
  log_msg : string;
  log_args : list PyVal
}.

(** ** State-and-error monad

    A computation receives the log written so far and either returns a
    result or raises; in both cases the log is kept. *)
Definition Run (A : Type) : Type := list LogRecord → (PyExc + A) * list LogRecord.

#[global] Instance Run_ret : MRet Run := λ A x log, (inr x, log).
#[global] Instance Run_bind : MBind Run := λ A B f m log,
  match m log with
  | (inl e, log') => (inl e, log')
  | (inr x, log') => f x log'
  end.

Definition raise {A} (e : PyExc) : Run A := λ log, (inl e, log).
Definition logger_debug (msg : string) (args : list PyVal) : Run unit :=
  λ log, (inr (), (log ++ [mkLog DEBUG msg args])%list).

(** [returns m log x log'] : started with log [log], [m] returns [x]
    (no exception) and leaves the log [log']. *)
Definition returns {A} (m : Run A) (log : list LogRecord) (x : A) (log' : list LogRecord) : Prop :=
  m log = (inr x, log').

Definition raises {A} (m : Run A) (log : list LogRecord) (e : PyExc) : Prop :=
  ∃ log', m log = (inl e, log').

(** ** Descriptors *)

Inductive EntityCategory := CONFIG | DIAGNOSTIC.

Inductive SensorDeviceClass := DURATION | DATA_SIZE | DATA_RATE.

(** Units used by the tables: three Home Assistant constants and one
    literal string. *)
Inductive UnitOfMeasurement :=
| UnitOfTime_SECONDS
| UnitOfInformation_MEGABYTES
| UnitOfDataRate_MEGABYTES_PER_SECOND
| UnitLiteral (s : string).

(** The fields of the base class [SensorEntityDescription] that the tables
    set; every other field keeps its default. *)
Record SensorEntityDescription := mkSensorEntityDescription {
  key : string;
  name : string;
  native_unit_of_measurement : option UnitOfMeasurement;
  device_class : option SensorDeviceClass;
  entity_category : option EntityCategory;
  icon : string
}.

(** [NetgearSensorEntityDescription] extends the base class with [value]
    (default [lambda data: data]) and [index] (default [0]).  The callable
    is a pure function: the only one the module ever builds is the default
    identity. *)
Record NetgearSensorEntityDescription := mkNetgearSensorEntityDescription {
  base :> SensorEntityDescription;
  value : PyVal → PyVal;
  index : Z
}.

Definition default_value : PyVal → PyVal := λ data, data.

(** Constructor call with keyword arguments, [value] and [index] defaulted. *)
Definition NetgearSensorEntityDescription_new
    (key name : string) (entity_category : option EntityCategory)
    (unit : option UnitOfMeasurement) (device_class : option SensorDeviceClass)
    (icon : string) : NetgearSensorEntityDescription :=
  mkNetgearSensorEntityDescription
    (mkSensorEntityDescription key name unit device_class entity_category icon)
    default_value 0.

(** ** Coordinator and switch *)

Abbreviation PolledDataSnapshot := (gmap string PyVal).

(** The coordinator's [data] attribute.  It starts as [None], holds the
    polled mapping after a poll, and [async_setup_entry] itself assigns
    [True] to it on its last line. *)
Inductive CoordinatorData :=
| DataNone
| DataDict (m : PolledDataSnapshot)
| DataTrue.

(** A nullable snapshot, as the coordinator exposes it to the entities. *)
Definition snapshot_data (s : option PolledDataSnapshot) : CoordinatorData :=
  match s with
  | None => DataNone
  | Some m => DataDict m
  end.

(** [self.coordinator.data.get(k)]: [dict.get] gives [None] for an absent
    key; [True] has no attribute [get]. *)
Definition data_get (d : CoordinatorData) (k : string) : Run PyVal :=
  match d with
  | DataDict m => mret (default PyNone (m !! k))
  | DataTrue => raise (AttributeError "'bool' object has no attribute 'get'")
  | DataNone => raise (AttributeError "'NoneType' object has no attribute 'get'")
  end.

(** The attributes of [HAGS108Switch] read by this module. *)
Record HAGS108Switch := mkSwitch {
  device_name : string;
  unique_id : string;
  SWITCH_PORTS : Z
}.

(** ** The sensor entity *)

Record NetgearRouterSensorEntity := mkEntity {
  entity_description : NetgearSensorEntityDescription;
  _name : string;
  _unique_id : string;
  _value : PyVal
}.

Definition set_value (v : PyVal) (self : NetgearRouterSensorEntity) : NetgearRouterSensorEntity :=
  mkEntity (entity_description self) (_name self) (_unique_id self) v.

(** [async_update_device]: the refresh callback. *)
Definition async_update_device (coordinator_data : CoordinatorData)
    (self : NetgearRouterSensorEntity) : Run NetgearRouterSensorEntity :=
  match coordinator_data with
  | DataNone => mret self
  | _ =>
    data ← data_get coordinator_data (key (entity_description self));
    match data with
    | PyNone =>
      let self := set_value PyNone self in
      logger_debug "key '%s' not in Netgear router response '%s'"
                   [PyStr (key (entity_description self)); data];;
      mret self
    | _ => mret (set_value (value (entity_description self) data) self)
    end
  end.

(** [__init__].  The base-class initialiser only stores the coordinator and
    the switch. *)
Definition NetgearRouterSensorEntity_init (coordinator_data : CoordinatorData)
    (switch : HAGS108Switch) (entity_description : NetgearSensorEntityDescription)
    : Run NetgearRouterSensorEntity :=
  let self :=
    mkEntity entity_description
      (device_name switch +:+ " " +:+ name entity_description)
      (unique_id switch +:+ "-" +:+ key entity_description +:+ "-"
         +:+ pretty (index entity_description))
      PyNone in
  async_update_device coordinator_data self.

(** The [native_value] property. *)
Definition native_value (self : NetgearRouterSensorEntity) : PyVal := _value self.

(** What [async_get_last_sensor_data] returns when a state was persisted. *)
Record SensorExtraStoredData := mkStored {
  stored_native_value : PyVal;
  stored_native_unit_of_measurement : option string
}.

(** [async_added_to_hass]; [last_sensor_data] is the result of
    [async_get_last_sensor_data], which is only awaited when the
    coordinator has no data. *)
Definition async_added_to_hass (coordinator_data : CoordinatorData)
    (last_sensor_data : option SensorExtraStoredData)
    (self : NetgearRouterSensorEntity) : NetgearRouterSensorEntity :=
  match coordinator_data with
  | DataNone =>
    match last_sensor_data with
    | Some sensor_data => set_value (stored_native_value sensor_data) self
    | None => self
    end
  | _ => self
  end.

(** ** [str.format] with keyword arguments

    Only what the templates use: replacement fields of the form [{name}]
    looked up among the keyword arguments (already rendered with [str]). *)
Fixpoint kwargs_lookup (kwargs : list (string * string)) (field : string) : option string :=
  match kwargs with
  | [] => None
  | (k, v) :: kwargs => if String.eqb k field then Some v else kwargs_lookup kwargs field
  end.

Fixpoint str_format_go (kwargs : list (string * string)) (template : string)
    (field : option string) : PyExc + string :=
  match template with
  | "" =>
    match field with
    | None => inr ""
    | Some _ => inl (ValueError "expected '}' before end of string")
    end
  | String c rest =>
    match field with
    | None =>
      if Ascii.eqb c "{"%char then str_format_go kwargs rest (Some "")
      else if Ascii.eqb c "}"%char then inl (ValueError "Single '}' encountered in format string")
      else
        match str_format_go kwargs rest None with
        | inr s => inr (String c s)
        | inl e => inl e
        end
    | Some f =>
      if Ascii.eqb c "}"%char then
        match kwargs_lookup kwargs f with
        | Some v =>
          match str_format_go kwargs rest None with
          | inr s => inr (v +:+ s)
          | inl e => inl e
          end
        | None => inl (KeyError f)
        end
      else str_format_go kwargs rest (Some (f +:+ String c ""))
    end
  end.

Definition str_format (template : string) (kwargs : list (string * string)) : Run string :=
  match str_format_go kwargs template None with
  | inr s => mret s
  | inl e => raise e
  end.

(** ** The descriptor tables *)

(** [SENSOR_TYPES], a dict of base-class descriptors, in insertion order. *)
Definition SENSOR_TYPES : list (string * SensorEntityDescription) := [
  ("link_rate",
   mkSensorEntityDescription "link_rate" "link rate" (Some (UnitLiteral "Mbps"))
     None (Some DIAGNOSTIC) "mdi:speedometer")
].

Definition DEVICE_SENSOR_TYPES : list NetgearSensorEntityDescription := [
  NetgearSensorEntityDescription_new "switch_ip" "IP Address"
    (Some DIAGNOSTIC) None None "mdi:switch";
  NetgearSensorEntityDescription_new "switch_name" "Switch Name"
    (Some DIAGNOSTIC) None None "mdi:text";
  NetgearSensorEntityDescription_new "switch_bootloader" "Switch Bootlader"
    (Some DIAGNOSTIC) None None "mdi:text";
  NetgearSensorEntityDescription_new "switch_firmware" "Switch Firmware"
    (Some DIAGNOSTIC) None None "mdi:text";
  NetgearSensorEntityDescription_new "switch_serial_number" "Switch Serial Number"
    (Some DIAGNOSTIC) None None "mdi:text";
  NetgearSensorEntityDescription_new "response_time_s" "Response Time (seconds)"
    (Some DIAGNOSTIC) (Some UnitOfTime_SECONDS) (Some DURATION) "mdi:clock"
].

(** One value of the [PORT_TEMPLATE] ordered dict. *)
Record PortTemplateData := mkPortTemplateData {
  tpl_name : string;
  tpl_native_unit_of_measurement : UnitOfMeasurement;
  tpl_device_class : SensorDeviceClass;
  tpl_icon : string
}.

(** [PORT_TEMPLATE], in insertion order. *)
Definition PORT_TEMPLATE : list (string * PortTemplateData) := [
  ("port_{port}_traffic_rx_mbytes",
   mkPortTemplateData "Port {port} Traffic Received"
     UnitOfInformation_MEGABYTES DATA_SIZE "mdi:download");
  ("port_{port}_traffic_tx_mbytes",
   mkPortTemplateData "Port {port} Traffic Transferred"
     UnitOfInformation_MEGABYTES DATA_SIZE "mdi:upload");
  ("port_{port}_speed_rx_mbytes",
   mkPortTemplateData "Port {port} Receiving"
     UnitOfDataRate_MEGABYTES_PER_SECOND DATA_RATE "mdi:download");
  ("port_{port}_speed_tx_mbytes",
   mkPortTemplateData "Port {port} Receiving"
     UnitOfDataRate_MEGABYTES_PER_SECOND DATA_RATE "mdi:upload");
  ("port_{port}_speed_io_mbytes",
   mkPortTemplateData "Port {port} Receiving"
     UnitOfDataRate_MEGABYTES_PER_SECOND DATA_RATE "mdi:swap-vertical")
].

(** [PORT_SENSORS], the hand-written list for ports 1 to 8. *)
Definition PORT_SENSORS : list NetgearSensorEntityDescription := [
  NetgearSensorEntityDescription_new "port_1_traffic_rx_mbytes" "Port 1 Traffic Received"
    None (Some UnitOfInformation_MEGABYTES) (Some DATA_SIZE) "mdi:download";
  NetgearSensorEntityDescription_new "port_1_traffic_tx_mbytes" "Port 1 Traffic Transferred"
    None (Some UnitOfInformation_MEGABYTES) (Some DATA_SIZE) "mdi:upload";
  NetgearSensorEntityDescription_new "port_1_speed_rx_mbytes" "Port 1 Receiving"
    None (Some UnitOfDataRate_MEGABYTES_PER_SECOND) (Some DATA_RATE) "mdi:download";
  NetgearSensorEntityDescription_new "port_1_speed_tx_mbytes" "Port 1 Transferring"
    None (Some UnitOfDataRate_MEGABYTES_PER_SECOND) (Some DATA_RATE) "mdi:upload";
  NetgearSensorEntityDescription_new "port_1_speed_io_mbytes" "Port 1 IO"
    None (Some UnitOfDataRate_MEGABYTES_PER_SECOND) (Some DATA_RATE) "mdi:swap-vertical";
  NetgearSensorEntityDescription_new "port_2_traffic_rx_mbytes" "Port 2 Traffic Received"
    None (Some UnitOfInformation_MEGABYTES) (Some DATA_SIZE) "mdi:download";
  NetgearSensorEntityDescription_new "port_2_traffic_tx_mbytes" "Port 2 Traffic Transferred"
    None (Some UnitOfInformation_MEGABYTES) (Some DATA_SIZE) "mdi:upload";
  NetgearSensorEntityDescription_new "port_2_speed_rx_mbytes" "Port 2 Receiving"
    None (Some UnitOfDataRate_MEGABYTES_PER_SECOND) (Some DATA_RATE) "mdi:download";
  NetgearSensorEntityDescription_new "port_2_speed_tx_mbytes" "Port 2 Transferring"
    None (Some UnitOfDataRate_MEGABYTES_PER_SECOND) (Some DATA_RATE) "mdi:upload";
  NetgearSensorEntityDescription_new "port_2_speed_io_mbytes" "Port 2 IO"
    None (Some UnitOfDataRate_MEGABYTES_PER_SECOND) (Some DATA_RATE) "mdi:swap-vertical";
  NetgearSensorEntityDescription_new "port_3_traffic_rx_mbytes" "Port 3 Traffic Received"
    None (Some UnitOfInformation_MEGABYTES) (Some DATA_SIZE) "mdi:download";
  NetgearSensorEntityDescription_new "port_3_traffic_tx_mbytes" "Port 3 Traffic Transferred"
    None (Some UnitOfInformation_MEGABYTES) (Some DATA_SIZE) "mdi:upload";
  NetgearSensorEntityDescription_new "port_3_speed_rx_mbytes" "Port 3 Receiving"
    None (Some UnitOfDataRate_MEGABYTES_PER_SECOND) (Some DATA_RATE) "mdi:download";
  NetgearSensorEntityDescription_new "port_3_speed_tx_mbytes" "Port 3 Transferring"
    None (Some UnitOfDataRate_MEGABYTES_PER_SECOND) (Some DATA_RATE) "mdi:upload";
  NetgearSensorEntityDescription_new "port_3_speed_io_mbytes" "Port 3 IO"
    None (Some UnitOfDataRate_MEGABYTES_PER_SECOND) (Some DATA_RATE) "mdi:swap-vertical";
  NetgearSensorEntityDescription_new "port_4_traffic_rx_mbytes" "Port 4 Traffic Received"
    None (Some UnitOfInformation_MEGABYTES) (Some DATA_SIZE) "mdi:download";
  NetgearSensorEntityDescription_new "port_4_traffic_tx_mbytes" "Port 4 Traffic Transferred"
    None (Some UnitOfInformation_MEGABYTES) (Some DATA_SIZE) "mdi:upload";
  NetgearSensorEntityDescription_new "port_4_speed_rx_mbytes" "Port 4 Receiving"
    None (Some UnitOfDataRate_MEGABYTES_PER_SECOND) (Some DATA_RATE) "mdi:download";
  NetgearSensorEntityDescription_new "port_4_speed_tx_mbytes" "Port 4 Transferring"
    None (Some UnitOfDataRate_MEGABYTES_PER_SECOND) (Some DATA_RATE) "mdi:upload";
  NetgearSensorEntityDescription_new "port_4_speed_io_mbytes" "Port 4 IO"
    None (Some UnitOfDataRate_MEGABYTES_PER_SECOND) (Some DATA_RATE) "mdi:swap-vertical";
  NetgearSensorEntityDescription_new "port_5_traffic_rx_mbytes" "Port 5 Traffic Received"
    None (Some UnitOfInformation_MEGABYTES) (Some DATA_SIZE) "mdi:download";
  NetgearSensorEntityDescription_new "port_5_traffic_tx_mbytes" "Port 5 Traffic Transferred"
    None (Some UnitOfInformation_MEGABYTES) (Some DATA_SIZE) "mdi:upload";
  NetgearSensorEntityDescription_new "port_5_speed_rx_mbytes" "Port 5 Receiving"
    None (Some UnitOfDataRate_MEGABYTES_PER_SECOND) (Some DATA_RATE) "mdi:download";
  NetgearSensorEntityDescription_new "port_5_speed_tx_mbytes" "Port 5 Transferring"
    None (Some UnitOfDataRate_MEGABYTES_PER_SECOND) (Some DATA_RATE) "mdi:upload";
  NetgearSensorEntityDescription_new "port_5_speed_io_mbytes" "Port 5 IO"
    None (Some UnitOfDataRate_MEGABYTES_PER_SECOND) (Some DATA_RATE) "mdi:swap-vertical";
  NetgearSensorEntityDescription_new "port_6_traffic_rx_mbytes" "Port 6 Traffic Received"
    None (Some UnitOfInformation_MEGABYTES) (Some DATA_SIZE) "mdi:download";
  NetgearSensorEntityDescription_new "port_6_traffic_tx_mbytes" "Port 6 Traffic Transferred"
    None (Some UnitOfInformation_MEGABYTES) (Some DATA_SIZE) "mdi:upload";
  NetgearSensorEntityDescription_new "port_6_speed_rx_mbytes" "Port 6 Receiving"
    None (Some UnitOfDataRate_MEGABYTES_PER_SECOND) (Some DATA_RATE) "mdi:download";
  NetgearSensorEntityDescription_new "port_6_speed_tx_mbytes" "Port 6 Transferring"
    None (Some UnitOfDataRate_MEGABYTES_PER_SECOND) (Some DATA_RATE) "mdi:upload";
  NetgearSensorEntityDescription_new "port_6_speed_io_mbytes" "Port 6 IO"
    None (Some UnitOfDataRate_MEGABYTES_PER_SECOND) (Some DATA_RATE) "mdi:swap-vertical";
  NetgearSensorEntityDescription_new "port_7_traffic_rx_mbytes" "Port 7 Traffic Received"
    None (Some UnitOfInformation_MEGABYTES) (Some DATA_SIZE) "mdi:download";
  NetgearSensorEntityDescription_new "port_7_traffic_tx_mbytes" "Port 7 Traffic Transferred"
    None (Some UnitOfInformation_MEGABYTES) (Some DATA_SIZE) "mdi:upload";
  NetgearSensorEntityDescription_new "port_7_speed_rx_mbytes" "Port 7 Receiving"
    None (Some UnitOfDataRate_MEGABYTES_PER_SECOND) (Some DATA_RATE) "mdi:download";
  NetgearSensorEntityDescription_new "port_7_speed_tx_mbytes" "Port 7 Transferring"
    None (Some UnitOfDataRate_MEGABYTES_PER_SECOND) (Some DATA_RATE) "mdi:upload";
  NetgearSensorEntityDescription_new "port_7_speed_io_mbytes" "Port 7 IO"
    None (Some UnitOfDataRate_MEGABYTES_PER_SECOND) (Some DATA_RATE) "mdi:swap-vertical";
  NetgearSensorEntityDescription_new "port_8_traffic_rx_mbytes" "Port 8 Traffic Received"
    None (Some UnitOfInformation_MEGABYTES) (Some DATA_SIZE) "mdi:download";
  NetgearSensorEntityDescription_new "port_8_traffic_tx_mbytes" "Port 8 Traffic Transferred"
    None (Some UnitOfInformation_MEGABYTES) (Some DATA_SIZE) "mdi:upload";
  NetgearSensorEntityDescription_new "port_8_speed_rx_mbytes" "Port 8 Receiving"
    None (Some UnitOfDataRate_MEGABYTES_PER_SECOND) (Some DATA_RATE) "mdi:download";
  NetgearSensorEntityDescription_new "port_8_speed_tx_mbytes" "Port 8 Transferring"
    None (Some UnitOfDataRate_MEGABYTES_PER_SECOND) (Some DATA_RATE) "mdi:upload";
  NetgearSensorEntityDescription_new "port_8_speed_io_mbytes" "Port 8 IO"
    None (Some UnitOfDataRate_MEGABYTES_PER_SECOND) (Some DATA_RATE) "mdi:swap-vertical"
].

(** ** Platform setup *)

(** A [for] loop whose body updates the loop state and may raise. *)
Fixpoint for_each {A S : Type} (l : list A) (body : S → A → Run S) (s : S) : Run S :=
  match l with
  | [] => mret s
  | x :: l => s' ← body s x; for_each l body s'
  end.

(** The description built in the inner loop for one template entry. *)
Definition port_description (port_nr : Z) (port_sensor_key : string)
    (port_sensor_data : PortTemplateData) : Run NetgearSensorEntityDescription :=
  k ← str_format port_sensor_key [("port", pretty port_nr)];
  n ← str_format (tpl_name port_sensor_data) [("port", pretty port_nr)];
  mret (NetgearSensorEntityDescription_new k n None
          (Some (tpl_native_unit_of_measurement port_sensor_data))
          (Some (tpl_device_class port_sensor_data))
          (tpl_icon port_sensor_data)).

(** [async_setup_entry].  [gs_switch] and the coordinator come from
    [hass.data]; the result is the list handed to [async_add_entities]
    together with the coordinator's [data] attribute at the end. *)
Definition async_setup_entry (gs_switch : HAGS108Switch) (coordinator_data : CoordinatorData)
    : Run (list NetgearRouterSensorEntity * CoordinatorData) :=
  let switch_entities := [] in
  switch_entities ←
    for_each DEVICE_SENSOR_TYPES (λ switch_entities description,
      descr_entity ← NetgearRouterSensorEntity_init coordinator_data gs_switch description;
      mret (switch_entities ++ [descr_entity])%list) switch_entities;
  let ports_cnt := SWITCH_PORTS gs_switch in
  switch_entities ←
    for_each (seqZ 0 ports_cnt) (λ switch_entities i,
      let port_nr := i + 1 in
      for_each PORT_TEMPLATE (λ switch_entities '(port_sensor_key, port_sensor_data),
        description ← port_description port_nr port_sensor_key port_sensor_data;
        port_sensor_entity ←
          NetgearRouterSensorEntity_init coordinator_data gs_switch description;
        mret (switch_entities ++ [port_sensor_entity])%list) switch_entities) switch_entities;
  mret (switch_entities, DataTrue).

(** * Vocabulary of the properties *)

(** ** Concrete inputs used by the examples *)

Definition example_switch : HAGS108Switch := mkSwitch "GS108E" "aa:bb:cc:dd:ee:ff" 8.

Definition example_description : NetgearSensorEntityDescription :=
  NetgearSensorEntityDescription_new "switch_ip" "IP Address"
    (Some DIAGNOSTIC) None None "mdi:switch".

(** A description whose extraction function is not the default one. *)
Definition example_description_const : NetgearSensorEntityDescription :=
  mkNetgearSensorEntityDescription example_description (λ _, PyInt 1) 0.

Definition example_entity (description : NetgearSensorEntityDescription) (v : PyVal)
    : NetgearRouterSensorEntity :=
  mkEntity description "GS108E IP Address" "aa:bb:cc:dd:ee:ff-switch_ip-0" v.

Definition example_snapshot : PolledDataSnapshot :=
  {[ "switch_ip" := PyStr "192.168.0.239"; "switch_name" := PyStr "office" ]}.

Definition example_snapshot_no_ip : PolledDataSnapshot :=
  {[ "switch_name" := PyStr "office" ]}.

Definition example_snapshot_null_ip : PolledDataSnapshot :=
  {[ "switch_ip" := PyNone; "switch_name" := PyStr "office" ]}.

(** ** Outcomes of the entity's methods *)

(** The record written by the missing-key branch. *)
Definition missing_key_record (self : NetgearRouterSensorEntity) : LogRecord :=
  mkLog DEBUG "key '%s' not in Netgear router response '%s'"
        [PyStr (key (entity_description self)); PyNone].

(** A run of refresh notifications, one per coordinator state. *)
Definition refresh_each (ds : list CoordinatorData) (self : NetgearRouterSensorEntity)
    : Run NetgearRouterSensorEntity :=
  for_each ds (λ self d, async_update_device d self) self.

(** The invariant as the data model words it: the cached value is [None]
    or the extraction of the snapshot's value for the entity's key. *)
Definition cached_value_invariant (d : CoordinatorData) (self : NetgearRouterSensorEntity) : Prop :=
  _value self = PyNone
  ∨ ∃ (m : PolledDataSnapshot) v,
      d = DataDict m
      ∧ m !! key (entity_description self) = Some v
      ∧ _value self = value (entity_description self) v.

(** The same with a third case: no snapshot yet and a restored value. *)
Definition cached_value_invariant_restore (restored : PyVal → Prop)
    (d : CoordinatorData) (self : NetgearRouterSensorEntity) : Prop :=
  _value self = PyNone
  ∨ (∃ (m : PolledDataSnapshot) v,
       d = DataDict m
       ∧ m !! key (entity_description self) = Some v
       ∧ v ≠ PyNone
       ∧ _value self = value (entity_description self) v)
  ∨ (d = DataNone ∧ restored (_value self)).

(** ** Closed forms of what the setup loops build

    The lemmas [port_loop], [ports_loop] and [async_setup_entry_snapshot]
    prove that the loops of [async_setup_entry] produce exactly these. *)

(** The five descriptions that the inner loop builds for one port. *)
Definition port_descriptions (port_nr : Z) : list NetgearSensorEntityDescription := [
  NetgearSensorEntityDescription_new
    ("port_" +:+ pretty port_nr +:+ "_traffic_rx_mbytes")
    ("Port " +:+ pretty port_nr +:+ " Traffic Received")
    None (Some UnitOfInformation_MEGABYTES) (Some DATA_SIZE) "mdi:download";
  NetgearSensorEntityDescription_new
    ("port_" +:+ pretty port_nr +:+ "_traffic_tx_mbytes")
    ("Port " +:+ pretty port_nr +:+ " Traffic Transferred")
    None (Some UnitOfInformation_MEGABYTES) (Some DATA_SIZE) "mdi:upload";
  NetgearSensorEntityDescription_new
    ("port_" +:+ pretty port_nr +:+ "_speed_rx_mbytes")
    ("Port " +:+ pretty port_nr +:+ " Receiving")
    None (Some UnitOfDataRate_MEGABYTES_PER_SECOND) (Some DATA_RATE) "mdi:download";
  NetgearSensorEntityDescription_new
    ("port_" +:+ pretty port_nr +:+ "_speed_tx_mbytes")
    ("Port " +:+ pretty port_nr +:+ " Receiving")
    None (Some UnitOfDataRate_MEGABYTES_PER_SECOND) (Some DATA_RATE) "mdi:upload";
  NetgearSensorEntityDescription_new
    ("port_" +:+ pretty port_nr +:+ "_speed_io_mbytes")
    ("Port " +:+ pretty port_nr +:+ " Receiving")
    None (Some UnitOfDataRate_MEGABYTES_PER_SECOND) (Some DATA_RATE) "mdi:swap-vertical"
].

(** Value and log records produced by a construction on the nullable
    snapshot [s]. *)
Definition constructed_value (s : option PolledDataSnapshot)
    (description : NetgearSensorEntityDescription) : PyVal :=
  match s with
  | None => PyNone
  | Some m =>
    match default PyNone (m !! key description) with
    | PyNone => PyNone
    | v => value description v
    end
  end.

Definition constructed (gs_switch : HAGS108Switch) (s : option PolledDataSnapshot)
    (description : NetgearSensorEntityDescription) : NetgearRouterSensorEntity :=
  mkEntity description
    (device_name gs_switch +:+ " " +:+ name description)
    (unique_id gs_switch +:+ "-" +:+ key description +:+ "-"
       +:+ pretty (index description))
    (constructed_value s description).

Definition construction_log (gs_switch : HAGS108Switch) (s : option PolledDataSnapshot)
    (description : NetgearSensorEntityDescription) : list LogRecord :=
  match s with
  | None => []
  | Some m =>
    match default PyNone (m !! key description) with
    | PyNone => [missing_key_record (constructed gs_switch s description)]
    | _ => []
    end
  end.

(** The descriptions visited by the outer loop over [range(ports_cnt)]. *)
Definition range_descriptions (range : list Z) : list NetgearSensorEntityDescription :=
  i ← range; port_descriptions (i + 1).

(** Every description that [async_setup_entry] turns into an entity. *)
Definition setup_descriptions (ports_cnt : Z) : list NetgearSensorEntityDescription :=
  (DEVICE_SENSOR_TYPES ++ range_descriptions (seqZ 0 ports_cnt))%list.

(** ** Keys and names *)

(** [str.endswith]. *)
Definition ends_with (suffix s : string) : bool :=
  bool_decide (list_ascii_of_string suffix `suffix_of` list_ascii_of_string s).

(** The keys of [DEVICE_SENSOR_TYPES], in order. *)
Definition device_keys : list string :=
  ["switch_ip"; "switch_name"; "switch_bootloader"; "switch_firmware";
   "switch_serial_number"; "response_time_s"].

(** The keys of [port_descriptions port_nr], in order. *)
Definition port_keys (port_nr : Z) : list string :=
  ["port_" +:+ pretty port_nr +:+ "_traffic_rx_mbytes";
   "port_" +:+ pretty port_nr +:+ "_traffic_tx_mbytes";
   "port_" +:+ pretty port_nr +:+ "_speed_rx_mbytes";
   "port_" +:+ pretty port_nr +:+ "_speed_tx_mbytes";
   "port_" +:+ pretty port_nr +:+ "_speed_io_mbytes"].

(** Case analysis on membership in an explicit list. *)
Ltac cases_elem_of H :=
  repeat (apply elem_of_cons in H as [H|H]); [..|by apply elem_of_nil in H].

(** The display names that the setup can produce: a device-level name, or a
    rendering of one of the three distinct template names. *)
Definition generated_name_shape (n : string) : bool :=
  bool_decide (n ∈ (λ d : NetgearSensorEntityDescription, name d) <$> DEVICE_SENSOR_TYPES)
  || ends_with " Traffic Received" n
  || ends_with " Traffic Transferred" n
  || ends_with " Receiving" n.

(** The descriptions of the port entities that the setup builds for a
    switch with [ports_cnt] ports: the descriptions of all entities but the
    six device-level ones. *)
Definition generated_port_descriptions (ports_cnt : Z)
    : option (list NetgearSensorEntityDescription) :=
  match async_setup_entry (mkSwitch "GS108E" "aa:bb:cc:dd:ee:ff" ports_cnt) DataNone [] with
  | (inr (switch_entities, _), _) =>
    Some (drop (length DEVICE_SENSOR_TYPES) (entity_description <$> switch_entities))
  | (inl _, _) => None
  end.

(** ** The life of one entity

    After construction an entity only changes through the attach step and
    the refresh callback.  An event carries the coordinator's [data]
    attribute at the moment it happens. *)

Inductive LifecycleEvent :=
| Attach (last_sensor_data : option SensorExtraStoredData)
| Refresh.

Definition lifecycle_step (self : NetgearRouterSensorEntity)
    (event : CoordinatorData * LifecycleEvent) : Run NetgearRouterSensorEntity :=
  match event with
  | (d, Attach last_sensor_data) => mret (async_added_to_hass d last_sensor_data self)
  | (d, Refresh) => async_update_device d self
  end.

Definition lifecycle (events : list (CoordinatorData * LifecycleEvent))
    (self : NetgearRouterSensorEntity) : Run NetgearRouterSensorEntity :=
  for_each events lifecycle_step self.

(** Where a cached value can come from: nowhere ([None]), a persisted state
    handed to an attach step that found no data, or a non-null reading
    stored under the entity's own key in a mapping seen by a refresh. *)
Definition value_origin (description : NetgearSensorEntityDescription)
    (events : list (CoordinatorData * LifecycleEvent)) (v : PyVal) : Prop :=
  v = PyNone
  ∨ (∃ sensor_data,
       (DataNone, Attach (Some sensor_data)) ∈ events
       ∧ v = stored_native_value sensor_data)
  ∨ (∃ (m : PolledDataSnapshot) raw,
       (DataDict m, Refresh) ∈ events
       ∧ m !! key description = Some raw
       ∧ raw ≠ PyNone
       ∧ v = value description raw).

(** The most recent set snapshot of a run of nullable snapshots. *)
Definition last_snapshot (snapshots : list (option PolledDataSnapshot))
    : option PolledDataSnapshot :=
  last (omap id snapshots).

(** [snapshot.get(k)] on a nullable snapshot, [None] when it is unset. *)
Definition raw_reading (s : option PolledDataSnapshot) (k : string) : PyVal :=
  match s with
  | None => PyNone
  | Some m => default PyNone (m !! k)
  end.

(** The [_name] attributes of the five entities of one port. *)
Definition port_entity_names (gs_switch : HAGS108Switch) (port_nr : Z) : list string :=
  [device_name gs_switch +:+ " " +:+ "Port " +:+ pretty port_nr +:+ " Traffic Received";
   device_name gs_switch +:+ " " +:+ "Port " +:+ pretty port_nr +:+ " Traffic Transferred";
   device_name gs_switch +:+ " " +:+ "Port " +:+ pretty port_nr +:+ " Receiving";
   device_name gs_switch +:+ " " +:+ "Port " +:+ pretty port_nr +:+ " Receiving";
   device_name gs_switch +:+ " " +:+ "Port " +:+ pretty port_nr +:+ " Receiving"].

(** The unique identifier computed by [__init__] for a key, index [0]. *)
Definition unique_id_of_key (gs_switch : HAGS108Switch) (k : string) : string :=
  unique_id gs_switch +:+ "-" +:+ k +:+ "-" +:+ pretty 0.

(** * Properties *)

(** ** The refresh callback, case by case *)

(** The refresh on a mapping, as one equation. *)
Lemma async_update_device_dict self m log :
  async_update_device (DataDict m) self log =
    match default PyNone (m !! key (entity_description self)) with
    | PyNone => (inr (set_value PyNone self), (log ++ [missing_key_record self])%list)
    | v => (inr (set_value (value (entity_description self) v) self), log)
    end.
Proof.
  unfold async_update_device, data_get, mbind, Run_bind, mret, Run_ret.
  by destruct (default PyNone (m !! key (entity_description self))).
Qed.

Lemma async_update_device_dict_returns self m log :
  ∃ self' log', returns (async_update_device (DataDict m) self) log self' log'.
Proof.
  unfold returns. rewrite async_update_device_dict.
  destruct (default PyNone (m !! key (entity_description self))); by eexists _, _.
Qed.

Lemma async_update_device_none self log :
  async_update_device DataNone self log = (inr self, log).
Proof. reflexivity. Qed.

Lemma async_update_device_true self log :
  raises (async_update_device DataTrue self) log
         (AttributeError "'bool' object has no attribute 'get'").
Proof. by exists log. Qed.

(** C2: on a mapping that lacks the entity's key the refresh returns
    normally, leaves the cached value [None] and writes exactly one record,
    at debug level. *)
Theorem refresh_missing_key_clears self (m : PolledDataSnapshot) log :
  m !! key (entity_description self) = None →
  ∃ self',
    returns (async_update_device (DataDict m) self) log self'
            (log ++ [missing_key_record self])%list
    ∧ _value self' = PyNone
    ∧ native_value self' = PyNone
    ∧ log_level (missing_key_record self) = DEBUG.
Proof.
  intros Hk. exists (set_value PyNone self).
  unfold returns. rewrite async_update_device_dict, Hk. done.
Qed.

Lemma refresh_missing_key_clears_witness :
  example_snapshot_no_ip !! key (entity_description (example_entity example_description (PyStr "10.0.0.1"))) = None
  ∧ ∃ self',
      returns (async_update_device (DataDict example_snapshot_no_ip)
                 (example_entity example_description (PyStr "10.0.0.1"))) [] self'
              ([] ++ [missing_key_record (example_entity example_description (PyStr "10.0.0.1"))])%list
      ∧ _value self' = PyNone
      ∧ native_value self' = PyNone
      ∧ log_level (missing_key_record (example_entity example_description (PyStr "10.0.0.1"))) = DEBUG.
Proof.
  split; [vm_compute; reflexivity|].
  apply (refresh_missing_key_clears
           (example_entity example_description (PyStr "10.0.0.1")) example_snapshot_no_ip []).
  vm_compute; reflexivity.
Defined.

(** C3 as stated fails when the mapped value is [None] and the extraction
    function does not send [None] to [None]: the refresh stores [None]
    without calling the extraction function. *)
Lemma refresh_present_applies_value_counterexample :
  example_snapshot_null_ip !! key (entity_description (example_entity example_description_const PyNone))
    = Some PyNone
  ∧ ∃ self' log',
      returns (async_update_device (DataDict example_snapshot_null_ip)
                 (example_entity example_description_const PyNone)) [] self' log'
      ∧ _value self' ≠ value (entity_description (example_entity example_description_const PyNone)) PyNone.
Proof.
  split; [vm_compute; reflexivity|].
  eexists _, _. split; [vm_compute; reflexivity|]. cbn. discriminate.
Qed.

(** C3, amended: when the key is mapped to [V], the refresh returns and the
    cached value is the extraction function applied to [V] provided [V] is
    not [None]; for [V = None] the cached value is [None], which is again
    the extraction of [V] for every extraction function that keeps [None],
    the default identity among them. *)
Theorem refresh_present_applies_value self (m : PolledDataSnapshot) V log :
  m !! key (entity_description self) = Some V →
  ∃ self' log',
    returns (async_update_device (DataDict m) self) log self' log'
    ∧ (V ≠ PyNone → _value self' = value (entity_description self) V ∧ log' = log)
    ∧ (V = PyNone → _value self' = PyNone)
    ∧ (value (entity_description self) PyNone = PyNone →
       _value self' = value (entity_description self) V)
    ∧ (value (entity_description self) = default_value → _value self' = V).
Proof.
  intros Hk. unfold returns. rewrite async_update_device_dict, Hk. cbn.
  destruct V; eexists _, _; (split; [reflexivity|]); cbn;
    repeat split; try done; try (by intros ->).
Qed.

Lemma refresh_present_applies_value_witness :
  example_snapshot !! key (entity_description (example_entity example_description PyNone))
    = Some (PyStr "192.168.0.239")
  ∧ ∃ self' log',
      returns (async_update_device (DataDict example_snapshot)
                 (example_entity example_description PyNone)) [] self' log'
      ∧ (PyStr "192.168.0.239" ≠ PyNone →
         _value self' = value (entity_description (example_entity example_description PyNone))
                              (PyStr "192.168.0.239") ∧ log' = [])
      ∧ (PyStr "192.168.0.239" = PyNone → _value self' = PyNone)
      ∧ (value (entity_description (example_entity example_description PyNone)) PyNone = PyNone →
         _value self' = value (entity_description (example_entity example_description PyNone))
                              (PyStr "192.168.0.239"))
      ∧ (value (entity_description (example_entity example_description PyNone)) = default_value →
         _value self' = PyStr "192.168.0.239").
Proof.
  split; [vm_compute; reflexivity|].
  apply (refresh_present_applies_value
           (example_entity example_description PyNone) example_snapshot
           (PyStr "192.168.0.239") []).
  vm_compute; reflexivity.
Defined.

(** C4: with the coordinator's data unset the refresh returns at once; the
    entity, its cached value included, and the log are what they were. *)
Theorem refresh_unset_is_noop self log :
  ∃ self',
    returns (async_update_device (snapshot_data None) self) log self' log
    ∧ _value self' = _value self
    ∧ native_value self' = native_value self
    ∧ self' = self.
Proof. by exists self. Qed.

(** C8: for every entity and every nullable snapshot the refresh returns
    (it never raises); it only ever changes the cached value, and on a
    mapping without the key it clears the value and writes the debug
    record. *)
Theorem refresh_total self (s : option PolledDataSnapshot) log :
  ∃ self' log',
    returns (async_update_device (snapshot_data s) self) log self' log'
    ∧ (∀ e, ¬ raises (async_update_device (snapshot_data s) self) log e)
    ∧ entity_description self' = entity_description self
    ∧ _name self' = _name self
    ∧ _unique_id self' = _unique_id self
    ∧ (∀ m, s = Some m → m !! key (entity_description self) = None →
         _value self' = PyNone ∧ log' = (log ++ [missing_key_record self])%list).
Proof.
  unfold returns, raises. destruct s as [m|]; cbn [snapshot_data].
  - rewrite async_update_device_dict.
    destruct (m !! key (entity_description self)) as [v|] eqn:Hk; cbn.
    + destruct v; eexists _, _; split_and!; try reflexivity;
        try (by intros e [l Hl]); intros m' [= <-]; congruence.
    + eexists _, _. split_and!; try reflexivity; [by intros e [l Hl]|done].
  - exists self, log. rewrite async_update_device_none.
    split_and!; try reflexivity; [by intros e [l Hl]|done].
Qed.

Lemma refresh_total_witness :
  ∃ self' log',
    returns (async_update_device (snapshot_data (Some example_snapshot_no_ip))
               (example_entity example_description (PyInt 3))) [] self' log'
    ∧ _value self' = PyNone.
Proof.
  destruct (refresh_total (example_entity example_description (PyInt 3))
              (Some example_snapshot_no_ip) [])
    as (self' & log' & Hret & _ & _ & _ & _ & Hmissing).
  exists self', log'. split; [exact Hret|].
  apply (Hmissing example_snapshot_no_ip); [reflexivity|vm_compute; reflexivity].
Defined.

(** C10: a key mapped to [None] is treated as an absent key.  The refresh
    has the same outcome as on the mapping with the key deleted: it
    returns, the cached value is [None] whatever the extraction function
    is, and the debug record is written. *)
Theorem refresh_present_null_as_missing self (m : PolledDataSnapshot) log :
  m !! key (entity_description self) = Some PyNone →
  async_update_device (DataDict m) self log
    = async_update_device (DataDict (delete (key (entity_description self)) m)) self log
  ∧ ∃ self',
      returns (async_update_device (DataDict m) self) log self'
              (log ++ [missing_key_record self])%list
      ∧ _value self' = PyNone
      ∧ log_level (missing_key_record self) = DEBUG
      ∧ ∀ f, returns (async_update_device (DataDict m)
                        (mkEntity (mkNetgearSensorEntityDescription
                                     (entity_description self) f
                                     (index (entity_description self)))
                                  (_name self) (_unique_id self) (_value self)))
                     log
                     (mkEntity (mkNetgearSensorEntityDescription
                                  (entity_description self) f
                                  (index (entity_description self)))
                               (_name self) (_unique_id self) PyNone)
                     (log ++ [missing_key_record self])%list.
Proof.
  intros Hk. split.
  - by rewrite !async_update_device_dict, Hk, lookup_delete_eq.
  - exists (set_value PyNone self). unfold returns. split_and!; try reflexivity.
    + by rewrite async_update_device_dict, Hk.
    + intros f. rewrite async_update_device_dict. cbn.
      by rewrite Hk.
Qed.

Lemma refresh_present_null_as_missing_witness :
  example_snapshot_null_ip !! key (entity_description (example_entity example_description_const (PyInt 7)))
    = Some PyNone
  ∧ async_update_device (DataDict example_snapshot_null_ip)
      (example_entity example_description_const (PyInt 7)) []
    = async_update_device
        (DataDict (delete (key (entity_description (example_entity example_description_const (PyInt 7))))
                          example_snapshot_null_ip))
        (example_entity example_description_const (PyInt 7)) [].
Proof.
  split; [vm_compute; reflexivity|].
  apply (refresh_present_null_as_missing
           (example_entity example_description_const (PyInt 7)) example_snapshot_null_ip []).
  vm_compute; reflexivity.
Defined.

(** ** Construction, restoration and the unique identifier *)

(** A returning refresh changes nothing but the cached value. *)
Lemma async_update_device_frame d self log self' log' :
  returns (async_update_device d self) log self' log' →
  entity_description self' = entity_description self
  ∧ _name self' = _name self
  ∧ _unique_id self' = _unique_id self.
Proof.
  unfold returns. destruct d as [|m|].
  - rewrite async_update_device_none. by intros [= <- _].
  - rewrite async_update_device_dict.
    destruct (default PyNone (m !! key (entity_description self)));
      by intros [= <- _].
  - destruct (async_update_device_true self log) as [l Hl]. congruence.
Qed.

Lemma init_unique_id d switch description log self log' :
  returns (NetgearRouterSensorEntity_init d switch description) log self log' →
  _unique_id self
    = unique_id switch +:+ "-" +:+ key description +:+ "-" +:+ pretty (index description).
Proof.
  unfold NetgearRouterSensorEntity_init. intros H.
  by destruct (async_update_device_frame _ _ _ _ _ H) as (_ & _ & ->).
Qed.

Lemma init_unset switch description log :
  NetgearRouterSensorEntity_init DataNone switch description log
    = (inr (mkEntity description
              (device_name switch +:+ " " +:+ name description)
              (unique_id switch +:+ "-" +:+ key description +:+ "-"
                 +:+ pretty (index description))
              PyNone), log).
Proof. reflexivity. Qed.

Lemma refresh_each_unset n self log :
  refresh_each (replicate n DataNone) self log = (inr self, log).
Proof. induction n as [|n IH]; [reflexivity|]. cbn. apply IH. Qed.

(** C5: an entity built while the coordinator has no data starts with no
    value; attaching it then restores the persisted value [P], which is
    what [native_value] reports through any number of refreshes that still
    find no data, and attaching without a persisted state changes nothing.
    When the coordinator's data is set at attach time the entity is left
    as it is, so a value computed from a mapping is never replaced by a
    restored one. *)
Theorem restore_only_without_snapshot switch description (stored : SensorExtraStoredData) log :
  ∃ self0,
    returns (NetgearRouterSensorEntity_init DataNone switch description) log self0 log
    ∧ native_value self0 = PyNone
    ∧ native_value (async_added_to_hass DataNone (Some stored) self0)
        = stored_native_value stored
    ∧ (∀ n, returns (refresh_each (replicate n DataNone)
                       (async_added_to_hass DataNone (Some stored) self0)) log
                    (async_added_to_hass DataNone (Some stored) self0) log)
    ∧ async_added_to_hass DataNone None self0 = self0
    ∧ (∀ m last self, async_added_to_hass (DataDict m) last self = self)
    ∧ (∀ last self, async_added_to_hass DataTrue last self = self)
    ∧ (∀ m m' last self,
         ∃ self' log',
           returns (async_update_device (DataDict m) self) log self' log'
           ∧ native_value (async_added_to_hass (DataDict m') last self') = native_value self').
Proof.
  eexists. split; [apply init_unset|]. split_and!; try reflexivity.
  - intros n. apply refresh_each_unset.
  - intros m m' last self.
    destruct (async_update_device_dict_returns self m log) as (self' & log' & H).
    by exists self', log'.
Qed.

(** C6: the unique identifier of a constructed entity is a function of the
    switch's unique identifier and of the description's key and index.
    Two constructions that agree on these give the same identifier,
    whatever the coordinator's data, the log, the device name and the
    remaining description fields are. *)
Theorem unique_id_deterministic d1 d2 switch1 switch2
    (description1 description2 : NetgearSensorEntityDescription)
    log1 log2 self1 self2 log1' log2' :
  unique_id switch1 = unique_id switch2 →
  key description1 = key description2 →
  index description1 = index description2 →
  returns (NetgearRouterSensorEntity_init d1 switch1 description1) log1 self1 log1' →
  returns (NetgearRouterSensorEntity_init d2 switch2 description2) log2 self2 log2' →
  _unique_id self1 = _unique_id self2.
Proof.
  intros Hu Hk Hi H1 H2.
  rewrite (init_unique_id _ _ _ _ _ _ H1), (init_unique_id _ _ _ _ _ _ H2).
  by rewrite Hu, Hk, Hi.
Qed.

Lemma unique_id_deterministic_witness :
  _unique_id (mkEntity example_description "GS108E IP Address"
                "aa:bb:cc:dd:ee:ff-switch_ip-0" PyNone)
  = _unique_id (mkEntity example_description_const "renamed IP Address"
                  "aa:bb:cc:dd:ee:ff-switch_ip-0" (PyInt 1)).
Proof.
  apply (unique_id_deterministic DataNone (DataDict example_snapshot)
           example_switch (mkSwitch "renamed" "aa:bb:cc:dd:ee:ff" 5)
           example_description example_description_const
           [] [missing_key_record (example_entity example_description PyNone)]
           _ _ [] [missing_key_record (example_entity example_description PyNone)]);
    vm_compute; reflexivity.
Defined.

(** ** The cached-value invariant *)

(** C7 as stated fails: the attach step, run while the coordinator has no
    data, stores a persisted value that comes from no snapshot. *)
Lemma cached_value_invariant_counterexample :
  ∃ self0,
    returns (NetgearRouterSensorEntity_init DataNone example_switch example_description) [] self0 []
    ∧ cached_value_invariant DataNone self0
    ∧ ¬ cached_value_invariant DataNone
          (async_added_to_hass DataNone (Some (mkStored (PyStr "192.168.0.239") None)) self0).
Proof.
  eexists. split; [apply init_unset|]. split; [by left|].
  intros [H|(m & v & H & _)]; discriminate.
Qed.

Lemma refresh_dict_invariant restored (m : PolledDataSnapshot) self log :
  ∃ self' log',
    returns (async_update_device (DataDict m) self) log self' log'
    ∧ cached_value_invariant_restore restored (DataDict m) self'.
Proof.
  unfold returns. rewrite async_update_device_dict.
  destruct (m !! key (entity_description self)) as [v|] eqn:Hk; cbn.
  - destruct v; eexists _, _; (split; [reflexivity|]);
      first [by left | right; left; by eexists m, _].
  - eexists _, _. split; [reflexivity|]. by left.
Qed.

(** C7, amended: as long as the coordinator exposes one nullable snapshot
    [s], the cached value is [None], or [s] is a mapping and the value is
    the extraction of its non-null value for the key, or [s] is unset and
    the value is a restored one.  Construction establishes this, the
    attach step and the refresh preserve it, and a refresh on any mapping
    establishes it from any earlier state. *)
Theorem cached_value_invariant_amended (restored : PyVal → Prop)
    (s : option PolledDataSnapshot) :
  (∀ switch description log,
     ∃ self log',
       returns (NetgearRouterSensorEntity_init (snapshot_data s) switch description) log self log'
       ∧ cached_value_invariant_restore restored (snapshot_data s) self)
  ∧ (∀ self last,
       cached_value_invariant_restore restored (snapshot_data s) self →
       (∀ sensor_data, last = Some sensor_data → restored (stored_native_value sensor_data)) →
       cached_value_invariant_restore restored (snapshot_data s)
         (async_added_to_hass (snapshot_data s) last self))
  ∧ (∀ self log,
       cached_value_invariant_restore restored (snapshot_data s) self →
       ∃ self' log',
         returns (async_update_device (snapshot_data s) self) log self' log'
         ∧ cached_value_invariant_restore restored (snapshot_data s) self')
  ∧ (∀ (m : PolledDataSnapshot) self log,
       ∃ self' log',
         returns (async_update_device (DataDict m) self) log self' log'
         ∧ cached_value_invariant_restore restored (DataDict m) self').
Proof.
  split_and!.
  - intros switch description log. destruct s as [m|]; cbn [snapshot_data].
    + apply refresh_dict_invariant.
    + eexists _, _. split; [apply init_unset|]. by left.
  - intros self last Hinv Hlast. destruct s as [m|]; cbn [snapshot_data] in *; [done|].
    destruct last as [sensor_data|]; [|done]. cbn.
    right; right. split; [done|]. by apply Hlast.
  - intros self log Hinv. destruct s as [m|]; cbn [snapshot_data] in *.
    + apply refresh_dict_invariant.
    + by exists self, log.
  - intros m self log. apply refresh_dict_invariant.
Qed.

Lemma cached_value_invariant_amended_witness :
  cached_value_invariant_restore (λ v, v = PyStr "192.168.0.239") DataNone
    (async_added_to_hass DataNone (Some (mkStored (PyStr "192.168.0.239") None))
       (example_entity example_description PyNone)).
Proof.
  destruct (cached_value_invariant_amended (λ v, v = PyStr "192.168.0.239") None)
    as (_ & Hattach & _).
  apply (Hattach (example_entity example_description PyNone)
           (Some (mkStored (PyStr "192.168.0.239") None))).
  - left. reflexivity.
  - intros sensor_data [= <-]. reflexivity.
Defined.

(** ** Platform setup: the list of entities *)

(** Rendering of the templates for a port number already turned into a
    string: keys and names of the five descriptions, in template order. *)
Lemma PORT_TEMPLATE_format (port : string) :
  (λ '(k, d), (str_format_go [("port", port)] k None,
               str_format_go [("port", port)] (tpl_name d) None)) <$> PORT_TEMPLATE
  = [ (inr ("port_" +:+ port +:+ "_traffic_rx_mbytes"),
       inr ("Port " +:+ port +:+ " Traffic Received"));
      (inr ("port_" +:+ port +:+ "_traffic_tx_mbytes"),
       inr ("Port " +:+ port +:+ " Traffic Transferred"));
      (inr ("port_" +:+ port +:+ "_speed_rx_mbytes"),
       inr ("Port " +:+ port +:+ " Receiving"));
      (inr ("port_" +:+ port +:+ "_speed_tx_mbytes"),
       inr ("Port " +:+ port +:+ " Receiving"));
      (inr ("port_" +:+ port +:+ "_speed_io_mbytes"),
       inr ("Port " +:+ port +:+ " Receiving")) ].
Proof. reflexivity. Qed.

Section setup.
Variable gs_switch : HAGS108Switch.
Variable s : option PolledDataSnapshot.

Lemma init_snapshot description log :
  NetgearRouterSensorEntity_init (snapshot_data s) gs_switch description log
    = (inr (constructed gs_switch s description),
       (log ++ construction_log gs_switch s description)%list).
Proof.
  unfold NetgearRouterSensorEntity_init, constructed, construction_log, constructed_value.
  destruct s as [m|]; cbn [snapshot_data].
  - rewrite async_update_device_dict. cbn.
    by destruct (default PyNone (m !! key description)); rewrite ?app_nil_r.
  - by rewrite async_update_device_none, app_nil_r.
Qed.

Lemma bind_returns {A B} (m : Run A) (k : A → Run B) log x log' :
  m log = (inr x, log') → (m ≫= k) log = k x log'.
Proof. unfold mbind, Run_bind. by intros ->. Qed.

(** The first loop of [async_setup_entry]. *)
Lemma device_loop descriptions switch_entities log :
  for_each descriptions (λ switch_entities description,
    descr_entity ← NetgearRouterSensorEntity_init (snapshot_data s) gs_switch description;
    mret (switch_entities ++ [descr_entity])%list) switch_entities log
  = (inr (switch_entities ++ (constructed gs_switch s <$> descriptions))%list,
     (log ++ concat (construction_log gs_switch s <$> descriptions))%list).
Proof.
  revert switch_entities log.
  induction descriptions as [|d ds IH]; intros switch_entities log; cbn.
  - by rewrite !app_nil_r.
  - erewrite bind_returns; [|erewrite bind_returns by apply init_snapshot; reflexivity].
    rewrite IH. by rewrite <-!(assoc_L (++)).
Qed.

Lemma port_description_returns port_nr k d log :
  (k, d) ∈ PORT_TEMPLATE →
  ∃ description,
    port_description port_nr k d log = (inr description, log)
    ∧ str_format_go [("port", pretty port_nr)] k None = inr (key description)
    ∧ str_format_go [("port", pretty port_nr)] (tpl_name d) None = inr (name description)
    ∧ description = NetgearSensorEntityDescription_new (key description) (name description)
                      None (Some (tpl_native_unit_of_measurement d))
                      (Some (tpl_device_class d)) (tpl_icon d).
Proof.
  intros Hin. unfold port_description, str_format.
  unfold PORT_TEMPLATE in Hin.
  repeat (apply elem_of_cons in Hin as [[= -> ->]|Hin]);
    [eexists; split_and!; reflexivity..|by apply elem_of_nil in Hin].
Qed.

(** The inner loop, for one port. *)
Lemma port_loop port_nr switch_entities log :
  for_each PORT_TEMPLATE (λ switch_entities '(port_sensor_key, port_sensor_data),
    description ← port_description port_nr port_sensor_key port_sensor_data;
    port_sensor_entity ←
      NetgearRouterSensorEntity_init (snapshot_data s) gs_switch description;
    mret (switch_entities ++ [port_sensor_entity])%list) switch_entities log
  = (inr (switch_entities ++ (constructed gs_switch s <$> port_descriptions port_nr))%list,
     (log ++ concat (construction_log gs_switch s <$> port_descriptions port_nr))%list).
Proof.
  unfold PORT_TEMPLATE. cbn [for_each].
  do 5 (erewrite bind_returns;
        [|erewrite bind_returns by reflexivity;
          erewrite bind_returns by apply init_snapshot; reflexivity]).
  cbn [for_each]. unfold mret, Run_ret, port_descriptions.
  rewrite <-!(assoc_L (++)). cbn [fmap list_fmap concat].
  by rewrite app_nil_r.
Qed.

Lemma ports_loop (range : list Z) switch_entities log :
  for_each range (λ switch_entities i,
    let port_nr := i + 1 in
    for_each PORT_TEMPLATE (λ switch_entities '(port_sensor_key, port_sensor_data),
      description ← port_description port_nr port_sensor_key port_sensor_data;
      port_sensor_entity ←
        NetgearRouterSensorEntity_init (snapshot_data s) gs_switch description;
      mret (switch_entities ++ [port_sensor_entity])%list) switch_entities)
    switch_entities log
  = (inr (switch_entities ++ (constructed gs_switch s <$> range_descriptions range))%list,
     (log ++ concat (construction_log gs_switch s <$> range_descriptions range))%list).
Proof.
  revert switch_entities log.
  induction range as [|i range IH]; intros switch_entities log.
  - cbn. by rewrite !app_nil_r.
  - cbn [for_each]. erewrite bind_returns by apply port_loop.
    rewrite IH. unfold range_descriptions. rewrite bind_cons, !fmap_app, concat_app.
    by rewrite <-!(assoc_L (++)).
Qed.

(** On a nullable snapshot the setup returns; this is its result. *)
Lemma async_setup_entry_snapshot log :
  async_setup_entry gs_switch (snapshot_data s) log
  = (inr (constructed gs_switch s <$> setup_descriptions (SWITCH_PORTS gs_switch), DataTrue),
     (log ++ concat (construction_log gs_switch s <$> setup_descriptions (SWITCH_PORTS gs_switch)))%list).
Proof.
  unfold async_setup_entry.
  erewrite bind_returns by apply device_loop.
  erewrite bind_returns by apply ports_loop.
  unfold setup_descriptions. cbn [mret Run_ret app].
  by rewrite !fmap_app, concat_app, (assoc_L (++)).
Qed.
End setup.

Lemma range_descriptions_ports ports_cnt :
  range_descriptions (seqZ 0 ports_cnt) = seqZ 1 ports_cnt ≫= port_descriptions.
Proof.
  rewrite <-(fmap_add_seqZ 1 0). unfold range_descriptions.
  induction (seqZ 0 ports_cnt) as [|i l IH]; [done|].
  rewrite fmap_cons, !bind_cons, IH. by rewrite (Z.add_comm i 1).
Qed.

(** ** Strings: suffixes of rendered templates *)

Lemma chars_app (a b : string) :
  list_ascii_of_string (a +:+ b)
    = (list_ascii_of_string a ++ list_ascii_of_string b)%list.
Proof.
  induction a as [|c a IH]; [done|].
  change (String c a +:+ b) with (String c (a +:+ b)). cbn. by rewrite IH.
Qed.

Lemma chars_inj (a b : string) :
  list_ascii_of_string a = list_ascii_of_string b → a = b.
Proof.
  intros H. rewrite <-(string_of_list_ascii_of_string a), H.
  apply string_of_list_ascii_of_string.
Qed.

Lemma ends_with_app (a b suffix : string) : ends_with suffix (a +:+ b +:+ suffix) = true.
Proof.
  apply bool_decide_eq_true. rewrite !chars_app. by do 2 apply suffix_app_r.
Qed.

(** Two renderings that end differently are different strings. *)
Lemma suffix_clash (a1 b1 a2 b2 s t : string) :
  a1 +:+ b1 +:+ s = a2 +:+ b2 +:+ t → ends_with s t || ends_with t s = true.
Proof.
  intros H.
  pose proof (ends_with_app a1 b1 s) as Hs. pose proof (ends_with_app a2 b2 t) as Ht.
  rewrite H in Hs. apply bool_decide_eq_true in Hs, Ht.
  unfold ends_with.
  destruct (suffix_weak_total _ _ _ Hs Ht) as [Hst|Hts].
  - by rewrite (bool_decide_eq_true_2 _ Hst).
  - rewrite (bool_decide_eq_true_2 _ Hts). apply orb_true_r.
Qed.

(** Two renderings of one template agree only for the same port number. *)
Lemma rendered_port_inj (a s : string) (p1 p2 : Z) :
  a +:+ pretty p1 +:+ s = a +:+ pretty p2 +:+ s → p1 = p2.
Proof.
  intros H%(inj (String.app a)). apply (inj pretty), chars_inj.
  apply (f_equal list_ascii_of_string) in H. rewrite !chars_app in H.
  by apply app_inv_tail in H.
Qed.

(** ** Keys of the entities *)

Lemma port_key_head port_nr k : k ∈ port_keys port_nr → String.get 0 k = Some "p"%char.
Proof. intros H. unfold port_keys in H. cases_elem_of H; by subst k. Qed.

Lemma port_keys_clash p1 p2 k : k ∈ port_keys p1 → k ∈ port_keys p2 → p1 = p2.
Proof.
  intros H1 H2. unfold port_keys in H1, H2.
  cases_elem_of H1; cases_elem_of H2; subst k;
    first [ exact (rendered_port_inj _ _ _ _ H2)
          | apply suffix_clash in H2; vm_compute in H2; discriminate H2 ].
Qed.

Lemma port_keys_NoDup p : NoDup (port_keys p).
Proof.
  unfold port_keys. repeat (apply NoDup_cons; split); [..|apply NoDup_nil_2];
    intros H; cases_elem_of H;
    apply suffix_clash in H; vm_compute in H; discriminate H.
Qed.

Lemma bind_ports_NoDup (ports : list Z) : NoDup ports → NoDup (ports ≫= port_keys).
Proof.
  intros Hports. apply NoDup_bind; [|intros; apply port_keys_NoDup|done].
  intros p1 p2 k _ _. apply port_keys_clash.
Qed.

Lemma setup_keys_NoDup (ports : list Z) :
  NoDup ports → NoDup (device_keys ++ (ports ≫= port_keys))%list.
Proof.
  intros Hports. apply NoDup_app. split_and!.
  - unfold device_keys. compute_done.
  - intros k Hk (p & Hp%port_key_head & _)%list_elem_of_bind.
    unfold device_keys in Hk. cases_elem_of Hk; subst k; discriminate Hp.
  - by apply bind_ports_NoDup.
Qed.

Lemma length_bind_port_descriptions (ports : list Z) :
  length (ports ≫= port_descriptions) = (5 * length ports)%nat.
Proof.
  induction ports as [|p ports IH]; [done|].
  rewrite bind_cons, length_app, IH. cbn. lia.
Qed.

Lemma keys_bind_port_descriptions (ports : list Z) :
  (λ d : NetgearSensorEntityDescription, key d) <$> (ports ≫= port_descriptions)
    = ports ≫= port_keys.
Proof.
  induction ports as [|p ports IH]; [done|].
  by rewrite !bind_cons, fmap_app, IH.
Qed.

(** ** Names of the entities' descriptions *)

Lemma setup_descriptions_name (ports : list Z) (d : NetgearSensorEntityDescription) :
  d ∈ (DEVICE_SENSOR_TYPES ++ (ports ≫= port_descriptions))%list →
  generated_name_shape (name d) = true.
Proof.
  unfold generated_name_shape.
  intros [Hd|(p & Hd & _)%list_elem_of_bind]%elem_of_app.
  - rewrite bool_decide_eq_true_2; [done|].
    by apply (list_elem_of_fmap_2 (λ d : NetgearSensorEntityDescription, name d)).
  - unfold port_descriptions in Hd. cases_elem_of Hd; subst d;
      cbn [name base NetgearSensorEntityDescription_new];
      rewrite ends_with_app; by rewrite ?orb_true_r.
Qed.

(** The fourth and fifth hand-written entries of every port carry names
    that the setup never produces. *)
Lemma PORT_SENSORS_other_names i (d : NetgearSensorEntityDescription) :
  PORT_SENSORS !! i = Some d →
  (i mod 5 = 3 ∨ i mod 5 = 4)%nat →
  generated_name_shape (name d) = false.
Proof.
  intros Hi Hm.
  do 40 (destruct i as [|i];
         [injection Hi as <-;
          first [ by vm_compute | exfalso; vm_compute in Hm; by destruct Hm ]|]).
  discriminate Hi.
Qed.

Lemma descriptions_constructed gs_switch s (descriptions : list NetgearSensorEntityDescription) :
  entity_description <$> (constructed gs_switch s <$> descriptions) = descriptions.
Proof. induction descriptions as [|d ds IH]; [done|]. cbn. by f_equal. Qed.

(** C1: for a port count [N >= 0] and any nullable snapshot the setup
    returns a list of [6 + 5 * N] entities, leaving [True] in the
    coordinator.  Their descriptions are the six of [DEVICE_SENSOR_TYPES]
    followed, for the ports [1..N] in order, by the five renderings of
    [PORT_TEMPLATE]; the keys are the six device keys followed by the five
    port keys of each port, and no key occurs twice.  No entity carries a
    key of [SENSOR_TYPES], and the hand-written [PORT_SENSORS] entries
    named "Transferring" and "IO" describe no entity. *)
Theorem setup_entities gs_switch (s : option PolledDataSnapshot) log :
  0 ≤ SWITCH_PORTS gs_switch →
  ∃ switch_entities log',
    returns (async_setup_entry gs_switch (snapshot_data s)) log
            (switch_entities, DataTrue) log'
    ∧ Z.of_nat (length switch_entities) = 6 + 5 * SWITCH_PORTS gs_switch
    ∧ entity_description <$> switch_entities
        = (DEVICE_SENSOR_TYPES
             ++ (seqZ 1 (SWITCH_PORTS gs_switch) ≫= port_descriptions))%list
    ∧ (λ e, key (entity_description e)) <$> switch_entities
        = (["switch_ip"; "switch_name"; "switch_bootloader"; "switch_firmware";
            "switch_serial_number"; "response_time_s"]
             ++ (seqZ 1 (SWITCH_PORTS gs_switch) ≫= port_keys))%list
    ∧ NoDup ((λ e, key (entity_description e)) <$> switch_entities)
    ∧ (∀ k d e, (k, d) ∈ SENSOR_TYPES → e ∈ switch_entities →
         key (entity_description e) ≠ k ∧ key (entity_description e) ≠ key d)
    ∧ (∀ i d e, PORT_SENSORS !! i = Some d → (i mod 5 = 3 ∨ i mod 5 = 4)%nat →
         e ∈ switch_entities → entity_description e ≠ d).
Proof.
  intros HN. eexists _, _. split; [apply async_setup_entry_snapshot|].
  unfold setup_descriptions. rewrite range_descriptions_ports.
  set (ports := seqZ 1 (SWITCH_PORTS gs_switch)).
  set (descriptions := (DEVICE_SENSOR_TYPES ++ (ports ≫= port_descriptions))%list).
  assert (Hkeys : (λ e, key (entity_description e)) <$> (constructed gs_switch s <$> descriptions)
                  = (device_keys ++ (ports ≫= port_keys))%list).
  { rewrite (list_fmap_compose entity_description
               (λ d : NetgearSensorEntityDescription, key d)), descriptions_constructed.
    unfold descriptions. by rewrite fmap_app, keys_bind_port_descriptions. }
  split_and!.
  - rewrite length_fmap. unfold descriptions.
    rewrite length_app, length_bind_port_descriptions. unfold ports.
    rewrite length_seqZ. cbn [length DEVICE_SENSOR_TYPES]. lia.
  - apply descriptions_constructed.
  - exact Hkeys.
  - rewrite Hkeys. apply setup_keys_NoDup, NoDup_seqZ.
  - intros k d e Hkd He.
    assert (Hin : key (entity_description e) ∈ (device_keys ++ (ports ≫= port_keys))%list).
    { rewrite <-Hkeys. by apply (list_elem_of_fmap_2 (λ e, key (entity_description e))). }
    unfold SENSOR_TYPES in Hkd. cases_elem_of Hkd. injection Hkd as -> ->.
    cbn [key]. assert (key (entity_description e) ≠ "link_rate"); [|done].
    intros Heq. rewrite Heq in Hin.
    apply elem_of_app in Hin as [Hin|(p & Hp%port_key_head & _)%list_elem_of_bind].
    + unfold device_keys in Hin. cases_elem_of Hin; discriminate Hin.
    + discriminate Hp.
  - intros i d e Hi Hm He Heq.
    assert (Hin : entity_description e ∈ descriptions).
    { rewrite <-(descriptions_constructed gs_switch s descriptions).
      by apply list_elem_of_fmap_2. }
    apply setup_descriptions_name in Hin.
    rewrite Heq, (PORT_SENSORS_other_names i d Hi Hm) in Hin. discriminate Hin.
Qed.

Lemma setup_entities_witness :
  0 ≤ SWITCH_PORTS example_switch
  ∧ ∃ switch_entities log',
      returns (async_setup_entry example_switch (snapshot_data (Some example_snapshot))) []
              (switch_entities, DataTrue) log'
      ∧ Z.of_nat (length switch_entities) = 6 + 5 * SWITCH_PORTS example_switch
      ∧ NoDup ((λ e, key (entity_description e)) <$> switch_entities).
Proof.
  split; [vm_compute; discriminate|].
  destruct (setup_entities example_switch (Some example_snapshot) [])
    as (switch_entities & log' & Hret & Hlen & _ & _ & Hnodup & _).
  - vm_compute; discriminate.
  - by exists switch_entities, log'.
Defined.

(** ** The hand-written list against the template *)

(** C9 on the code: for eight ports the setup builds forty port
    descriptions that agree with [PORT_SENSORS] entry by entry on key,
    unit, device class, entity category and icon, and on the name of the
    first three entries of each port.  The names of the fourth and fifth
    entries differ: the template renders "Port 1 Receiving" where the list
    says "Port 1 Transferring" and "Port 1 IO". *)
Theorem port_template_against_PORT_SENSORS :
  ∃ generated,
    generated_port_descriptions 8 = Some generated
    ∧ length generated = length PORT_SENSORS
    ∧ (λ d : NetgearSensorEntityDescription, key d) <$> generated
        = (λ d : NetgearSensorEntityDescription, key d) <$> PORT_SENSORS
    ∧ (λ d : NetgearSensorEntityDescription,
         (native_unit_of_measurement d, device_class d, entity_category d, icon d))
        <$> generated
        = (λ d : NetgearSensorEntityDescription,
             (native_unit_of_measurement d, device_class d, entity_category d, icon d))
            <$> PORT_SENSORS
    ∧ (∀ i (g h : NetgearSensorEntityDescription),
         generated !! i = Some g → PORT_SENSORS !! i = Some h →
         (name g = name h ↔ (i mod 5 < 3)%nat))
    ∧ (name <$> (base <$> generated !! 3%nat)) = Some "Port 1 Receiving"
    ∧ (name <$> (base <$> PORT_SENSORS !! 3%nat)) = Some "Port 1 Transferring"
    ∧ (name <$> (base <$> generated !! 4%nat)) = Some "Port 1 Receiving"
    ∧ (name <$> (base <$> PORT_SENSORS !! 4%nat)) = Some "Port 1 IO".
Proof.
  eexists. split; [vm_compute; reflexivity|].
  split_and!; try (vm_compute; reflexivity).
  intros i g h Hg Hh.
  do 40 (destruct i as [|i];
         [injection Hg as <-; injection Hh as <-; vm_compute;
          split; intros H; first [reflexivity | lia | discriminate H]|]).
  discriminate Hg.
Qed.


(** * Further properties of the setup *)

(** Every description built by the setup keeps the default extraction
    function and the default index. *)
Lemma setup_descriptions_defaults (ports : list Z) (d : NetgearSensorEntityDescription) :
  d ∈ (DEVICE_SENSOR_TYPES ++ (ports ≫= port_descriptions))%list →
  value d = default_value ∧ index d = 0.
Proof.
  intros [Hd|(p & Hd & _)%list_elem_of_bind]%elem_of_app.
  - unfold DEVICE_SENSOR_TYPES in Hd. cases_elem_of Hd; by subst d.
  - unfold port_descriptions in Hd. cases_elem_of Hd; by subst d.
Qed.

Lemma setup_descriptions_ports ports_cnt :
  setup_descriptions ports_cnt
    = (DEVICE_SENSOR_TYPES ++ (seqZ 1 ports_cnt ≫= port_descriptions))%list.
Proof. unfold setup_descriptions. by rewrite range_descriptions_ports. Qed.

(** A returning setup hands over the constructed entities and nothing else. *)
Lemma setup_returns_inv gs_switch (s : option PolledDataSnapshot) log switch_entities d log' :
  returns (async_setup_entry gs_switch (snapshot_data s)) log (switch_entities, d) log' →
  switch_entities = constructed gs_switch s <$> setup_descriptions (SWITCH_PORTS gs_switch)
  ∧ d = DataTrue
  ∧ log' = (log ++ concat (construction_log gs_switch s
                             <$> setup_descriptions (SWITCH_PORTS gs_switch)))%list.
Proof.
  unfold returns. rewrite async_setup_entry_snapshot. by intros [= <- <- <-].
Qed.

(** X1: a port count that is zero or negative makes [range(ports_cnt)]
    empty: the setup returns the six device-level entities and no port
    entity. *)
Theorem setup_without_ports gs_switch (s : option PolledDataSnapshot) log :
  SWITCH_PORTS gs_switch ≤ 0 →
  ∃ switch_entities log',
    returns (async_setup_entry gs_switch (snapshot_data s)) log
            (switch_entities, DataTrue) log'
    ∧ entity_description <$> switch_entities = DEVICE_SENSOR_TYPES
    ∧ length switch_entities = 6%nat.
Proof.
  intros HN. eexists _, _. split; [apply async_setup_entry_snapshot|].
  unfold setup_descriptions. rewrite seqZ_nil by done.
  cbn [range_descriptions mbind list_bind]. rewrite app_nil_r. split.
  - apply descriptions_constructed.
  - by rewrite length_fmap.
Qed.

Lemma setup_without_ports_witness :
  ∃ switch_entities log',
    returns (async_setup_entry (mkSwitch "GS108E" "aa:bb:cc:dd:ee:ff" (-2))
               (snapshot_data (Some example_snapshot))) []
            (switch_entities, DataTrue) log'
    ∧ entity_description <$> switch_entities = DEVICE_SENSOR_TYPES
    ∧ length switch_entities = 6%nat.
Proof.
  apply (setup_without_ports (mkSwitch "GS108E" "aa:bb:cc:dd:ee:ff" (-2))
           (Some example_snapshot) []).
  vm_compute; discriminate.
Defined.

Lemma unique_id_of_key_inj gs_switch (k1 k2 : string) :
  unique_id_of_key gs_switch k1 = unique_id_of_key gs_switch k2 → k1 = k2.
Proof.
  unfold unique_id_of_key.
  intros H%(inj (String.app (unique_id gs_switch)))%(inj (String.app "-")).
  apply chars_inj. apply (f_equal list_ascii_of_string) in H.
  rewrite !chars_app in H. by apply app_inv_tail in H.
Qed.

Lemma unique_ids_constructed gs_switch s (descriptions : list NetgearSensorEntityDescription) :
  Forall (λ d : NetgearSensorEntityDescription, index d = 0) descriptions →
  _unique_id <$> (constructed gs_switch s <$> descriptions)
    = unique_id_of_key gs_switch
        <$> ((λ d : NetgearSensorEntityDescription, key d) <$> descriptions).
Proof.
  induction 1 as [|d ds Hd _ IH]; [done|].
  cbn [fmap list_fmap] in *. rewrite IH. f_equal.
  unfold unique_id_of_key. cbn [_unique_id constructed]. by rewrite Hd.
Qed.

Lemma setup_descriptions_index ports_cnt :
  Forall (λ d : NetgearSensorEntityDescription, index d = 0) (setup_descriptions ports_cnt).
Proof.
  rewrite setup_descriptions_ports. apply Forall_forall.
  intros d Hd. by apply setup_descriptions_defaults in Hd as [_ ?].
Qed.

Lemma setup_descriptions_keys ports_cnt :
  (λ d : NetgearSensorEntityDescription, key d) <$> setup_descriptions ports_cnt
    = (device_keys ++ (seqZ 1 ports_cnt ≫= port_keys))%list.
Proof.
  rewrite setup_descriptions_ports. by rewrite fmap_app, keys_bind_port_descriptions.
Qed.

(** X2: for every port count and every nullable snapshot, the entities
    returned by the setup have pairwise distinct unique identifiers: the
    switch's identifier, the key and the index [0], joined by dashes. *)
Theorem setup_unique_ids_distinct gs_switch (s : option PolledDataSnapshot) log :
  ∃ switch_entities log',
    returns (async_setup_entry gs_switch (snapshot_data s)) log
            (switch_entities, DataTrue) log'
    ∧ _unique_id <$> switch_entities
        = unique_id_of_key gs_switch
            <$> (device_keys ++ (seqZ 1 (SWITCH_PORTS gs_switch) ≫= port_keys))%list
    ∧ NoDup (_unique_id <$> switch_entities).
Proof.
  eexists _, _. split; [apply async_setup_entry_snapshot|].
  rewrite unique_ids_constructed by apply setup_descriptions_index.
  rewrite setup_descriptions_keys. split; [done|].
  apply NoDup_fmap_2_strong; [|apply setup_keys_NoDup, NoDup_seqZ].
  intros k1 k2 _ _. apply unique_id_of_key_inj.
Qed.

(** X3: the list of unique identifiers that the setup produces depends on
    the switch's unique identifier and port count only: two runs that agree
    on these give the same identifiers in the same order, whatever the
    snapshots, the device names and the logs are. *)
Theorem setup_unique_ids_stable gs_switch1 gs_switch2
    (s1 s2 : option PolledDataSnapshot) log1 log2
    switch_entities1 switch_entities2 d1 d2 log1' log2' :
  unique_id gs_switch1 = unique_id gs_switch2 →
  SWITCH_PORTS gs_switch1 = SWITCH_PORTS gs_switch2 →
  returns (async_setup_entry gs_switch1 (snapshot_data s1)) log1 (switch_entities1, d1) log1' →
  returns (async_setup_entry gs_switch2 (snapshot_data s2)) log2 (switch_entities2, d2) log2' →
  _unique_id <$> switch_entities1 = _unique_id <$> switch_entities2.
Proof.
  intros Hu Hp (-> & _)%setup_returns_inv (-> & _)%setup_returns_inv.
  rewrite !unique_ids_constructed by apply setup_descriptions_index.
  rewrite Hp. apply list_fmap_ext. intros _ k _.
  unfold unique_id_of_key. by rewrite Hu.
Qed.

Lemma setup_unique_ids_stable_witness :
  _unique_id <$> (constructed example_switch None <$> setup_descriptions 8)
  = _unique_id <$> (constructed (mkSwitch "renamed" "aa:bb:cc:dd:ee:ff" 8)
                      (Some example_snapshot) <$> setup_descriptions 8).
Proof.
  apply (setup_unique_ids_stable example_switch (mkSwitch "renamed" "aa:bb:cc:dd:ee:ff" 8)
           None (Some example_snapshot) [] [] _ _ DataTrue DataTrue
           [] (concat (construction_log (mkSwitch "renamed" "aa:bb:cc:dd:ee:ff" 8)
                         (Some example_snapshot) <$> setup_descriptions 8)));
    [reflexivity|reflexivity|unfold returns; vm_compute; reflexivity..].
Defined.

Lemma constructed_value_default (s : option PolledDataSnapshot)
    (d : NetgearSensorEntityDescription) :
  value d = default_value → constructed_value s d = raw_reading s (key d).
Proof.
  intros Hv. unfold constructed_value, raw_reading. destruct s as [m|]; [|done].
  rewrite Hv. by destruct (default PyNone (m !! key d)).
Qed.

Lemma constructed_values gs_switch (s : option PolledDataSnapshot) ports_cnt :
  Forall (λ e, _value e = raw_reading s (key (entity_description e)))
         (constructed gs_switch s <$> setup_descriptions ports_cnt).
Proof.
  rewrite setup_descriptions_ports. apply Forall_fmap, Forall_forall.
  intros d [Hv _]%setup_descriptions_defaults. cbn.
  by apply constructed_value_default.
Qed.

(** X4: every entity returned by the setup caches exactly the raw reading
    stored under its key in the snapshot the setup found: [None] when the
    snapshot is unset or lacks the key. *)
Theorem setup_entity_values gs_switch (s : option PolledDataSnapshot) log :
  ∃ switch_entities log',
    returns (async_setup_entry gs_switch (snapshot_data s)) log
            (switch_entities, DataTrue) log'
    ∧ Forall (λ e, _value e = raw_reading s (key (entity_description e))) switch_entities.
Proof.
  eexists _, _. split; [apply async_setup_entry_snapshot|]. apply constructed_values.
Qed.

Lemma construction_log_filter gs_switch (m : PolledDataSnapshot)
    (descriptions : list NetgearSensorEntityDescription) :
  Forall (λ d, value d = default_value) descriptions →
  concat (construction_log gs_switch (Some m) <$> descriptions)
    = missing_key_record
        <$> filter (λ e, _value e = PyNone) (constructed gs_switch (Some m) <$> descriptions).
Proof.
  induction 1 as [|d ds Hd _ IH]; [done|].
  cbn [fmap list_fmap concat]. rewrite IH, filter_cons.
  pose proof (constructed_value_default (Some m) d Hd) as Hv.
  unfold construction_log. cbn [_value constructed]. rewrite Hv.
  unfold raw_reading.
  destruct (default PyNone (m !! key d)) eqn:Hraw;
    by rewrite ?decide_True by done.
Qed.

(** X5: the setup writes to the log only when it found a mapping, and then
    exactly one debug record per entity left without a value, in entity
    order; on an unset snapshot it leaves the log untouched. *)
Theorem setup_log gs_switch (s : option PolledDataSnapshot) log :
  ∃ switch_entities log',
    returns (async_setup_entry gs_switch (snapshot_data s)) log
            (switch_entities, DataTrue) log'
    ∧ log' = (log ++ match s with
                     | None => []
                     | Some _ =>
                       missing_key_record
                         <$> filter (λ e, _value e = PyNone) switch_entities
                     end)%list
    ∧ Forall (λ r, log_level r = DEBUG) (drop (length log) log').
Proof.
  eexists _, _. split; [apply async_setup_entry_snapshot|].
  assert (Hlog : concat (construction_log gs_switch s
                           <$> setup_descriptions (SWITCH_PORTS gs_switch))
                 = match s with
                   | None => []
                   | Some _ =>
                     missing_key_record
                       <$> filter (λ e, _value e = PyNone)
                             (constructed gs_switch s
                                <$> setup_descriptions (SWITCH_PORTS gs_switch))
                   end).
  { destruct s as [m|].
    - apply construction_log_filter. rewrite setup_descriptions_ports.
      apply Forall_forall. intros d Hd.
      by apply setup_descriptions_defaults in Hd as [? _].
    - induction (setup_descriptions (SWITCH_PORTS gs_switch)) as [|d ds IH]; [done|].
      cbn [fmap list_fmap concat]. by rewrite IH. }
  rewrite Hlog. split; [done|]. rewrite drop_app_length.
  destruct s; [|constructor]. by apply Forall_fmap, Forall_forall.
Qed.

Lemma names_constructed gs_switch s (descriptions : list NetgearSensorEntityDescription) :
  _name <$> (constructed gs_switch s <$> descriptions)
    = (λ d : NetgearSensorEntityDescription, device_name gs_switch +:+ " " +:+ name d)
        <$> descriptions.
Proof. induction descriptions as [|d ds IH]; [done|]. cbn. by f_equal. Qed.

Lemma names_bind_port_descriptions gs_switch (ports : list Z) :
  (λ d : NetgearSensorEntityDescription, device_name gs_switch +:+ " " +:+ name d)
    <$> (ports ≫= port_descriptions)
  = ports ≫= port_entity_names gs_switch.
Proof.
  induction ports as [|p ports IH]; [done|].
  by rewrite !bind_cons, fmap_app, IH.
Qed.

(** X6: the entity names are the device name followed by the description's
    name; for every port the three rate entities (receive, transmit,
    combined) get one and the same name, so that with at least one port
    the names do not tell the entities apart. *)
Theorem setup_entity_names gs_switch (s : option PolledDataSnapshot) log :
  ∃ switch_entities log',
    returns (async_setup_entry gs_switch (snapshot_data s)) log
            (switch_entities, DataTrue) log'
    ∧ _name <$> switch_entities
        = (((λ d : NetgearSensorEntityDescription, device_name gs_switch +:+ " " +:+ name d)
              <$> DEVICE_SENSOR_TYPES)
             ++ (seqZ 1 (SWITCH_PORTS gs_switch) ≫= port_entity_names gs_switch))%list
    ∧ (0 < SWITCH_PORTS gs_switch → ¬ NoDup (_name <$> switch_entities)).
Proof.
  eexists _, _. split; [apply async_setup_entry_snapshot|].
  rewrite names_constructed, setup_descriptions_ports, fmap_app,
    names_bind_port_descriptions.
  split; [done|]. intros HN.
  rewrite seqZ_cons, bind_cons by done.
  intros (_ & _ & Hdup)%NoDup_app. apply NoDup_app in Hdup as (Hdup & _).
  unfold port_entity_names in Hdup.
  do 2 apply NoDup_cons in Hdup as (_ & Hdup).
  apply NoDup_cons in Hdup as (Hnotin & _). apply Hnotin. by left.
Qed.

Lemma setup_entity_names_witness :
  ∃ switch_entities log',
    returns (async_setup_entry example_switch (snapshot_data None)) []
            (switch_entities, DataTrue) log'
    ∧ ¬ NoDup (_name <$> switch_entities).
Proof.
  destruct (setup_entity_names example_switch None [])
    as (switch_entities & log' & Hret & _ & Hdup).
  exists switch_entities, log'. split; [exact Hret|].
  apply Hdup. vm_compute; reflexivity.
Defined.

(** X7: the setup leaves [True] in the coordinator.  Until a poll replaces
    it, refreshing any of the returned entities raises [AttributeError],
    and so does a second setup on the same coordinator. *)
Theorem after_setup_refresh_raises gs_switch (s : option PolledDataSnapshot) log :
  ∃ switch_entities d log',
    returns (async_setup_entry gs_switch (snapshot_data s)) log (switch_entities, d) log'
    ∧ d = DataTrue
    ∧ (∀ e log2, e ∈ switch_entities →
         raises (async_update_device d e) log2
                (AttributeError "'bool' object has no attribute 'get'"))
    ∧ (∀ gs_switch2 log2,
         async_setup_entry gs_switch2 d log2
           = (inl (AttributeError "'bool' object has no attribute 'get'"), log2)).
Proof.
  eexists _, _, _. split; [apply async_setup_entry_snapshot|].
  split_and!; [done| |done].
  intros e log2 _. apply async_update_device_true.
Qed.

(** X8: with the [True] that the setup leaves in the coordinator, the attach
    step of every returned entity skips the restoration: whatever state was
    persisted, the entity keeps the value it was constructed with. *)
Theorem after_setup_attach_keeps_value gs_switch (s : option PolledDataSnapshot) log :
  ∃ switch_entities d log',
    returns (async_setup_entry gs_switch (snapshot_data s)) log (switch_entities, d) log'
    ∧ ∀ e last_sensor_data, e ∈ switch_entities →
        async_added_to_hass d last_sensor_data e = e
        ∧ native_value (async_added_to_hass d last_sensor_data e)
            = raw_reading s (key (entity_description e)).
Proof.
  eexists _, DataTrue, _. split; [apply async_setup_entry_snapshot|].
  intros e last He. split; [done|].
  pose proof (constructed_values gs_switch s (SWITCH_PORTS gs_switch)) as Hvalues.
  rewrite Forall_forall in Hvalues. by apply Hvalues.
Qed.

(** * Further properties of the entity's life *)

Lemma lifecycle_cons event events self log :
  lifecycle (event :: events) self log
    = match lifecycle_step self event log with
      | (inl e, log') => (inl e, log')
      | (inr self', log') => lifecycle events self' log'
      end.
Proof. reflexivity. Qed.

Lemma async_added_to_hass_frame d last_sensor_data self :
  entity_description (async_added_to_hass d last_sensor_data self) = entity_description self
  ∧ _name (async_added_to_hass d last_sensor_data self) = _name self
  ∧ _unique_id (async_added_to_hass d last_sensor_data self) = _unique_id self.
Proof. by destruct d, last_sensor_data. Qed.

Lemma lifecycle_step_frame event self log self' log' :
  returns (lifecycle_step self event) log self' log' →
  entity_description self' = entity_description self
  ∧ _name self' = _name self
  ∧ _unique_id self' = _unique_id self.
Proof.
  destruct event as [d [last|]]; cbn [lifecycle_step].
  - intros [= <- _]. apply async_added_to_hass_frame.
  - apply async_update_device_frame.
Qed.

Lemma lifecycle_keeps_identity_helper events self log self' log' :
  returns (lifecycle events self) log self' log' →
  entity_description self' = entity_description self
  ∧ _name self' = _name self
  ∧ _unique_id self' = _unique_id self.
Proof.
  revert self log. induction events as [|event events IH]; intros self log.
  - by intros [= <- _].
  - unfold returns. rewrite lifecycle_cons.
    destruct (lifecycle_step self event log) as [[e|self1] log1] eqn:Hstep; [done|].
    intros (-> & -> & ->)%IH. by apply lifecycle_step_frame in Hstep.
Qed.

(** X9: nothing that happens to an entity after its construction changes
    its description, its name or its unique identifier: through any run of
    attach steps and refreshes that returns, on any coordinator states,
    the three are what the constructor set. *)
Theorem lifecycle_keeps_identity events self log self' log' :
  returns (lifecycle events self) log self' log' →
  entity_description self' = entity_description self
  ∧ _name self' = _name self
  ∧ _unique_id self' = _unique_id self.
Proof. apply lifecycle_keeps_identity_helper. Qed.

Lemma lifecycle_keeps_identity_witness :
  _unique_id (mkEntity example_description "GS108E IP Address"
                "aa:bb:cc:dd:ee:ff-switch_ip-0" (PyStr "192.168.0.239"))
  = _unique_id (example_entity example_description PyNone).
Proof.
  apply (lifecycle_keeps_identity
           [(DataNone, Attach (Some (mkStored (PyStr "10.0.0.1") None)));
            (DataNone, Refresh); (DataDict example_snapshot, Refresh)]
           (example_entity example_description PyNone) [] _ []).
  vm_compute; reflexivity.
Defined.

Lemma lifecycle_step_outcome event self log :
  match event with
  | (DataTrue, Refresh) =>
    lifecycle_step self event log
      = (inl (AttributeError "'bool' object has no attribute 'get'"), log)
  | _ => ∃ self' log', lifecycle_step self event log = (inr self', log')
  end.
Proof.
  destruct event as [d [last|]]; cbn [lifecycle_step].
  - destruct d; by eexists _, _.
  - destruct d as [|m|]; [by eexists _, _| |done].
    apply async_update_device_dict_returns.
Qed.

(** X10: a run of attach steps and refreshes raises exactly when one of its
    refreshes finds [True] in the coordinator, and what it raises then is
    the [AttributeError] of the missing [get]; attach steps never raise and
    neither do refreshes on unset data or on a mapping. *)
Theorem lifecycle_raises_iff events self log :
  ((∃ e, raises (lifecycle events self) log e) ↔ (DataTrue, Refresh) ∈ events)
  ∧ (∀ e, raises (lifecycle events self) log e →
       e = AttributeError "'bool' object has no attribute 'get'").
Proof.
  revert self log. induction events as [|event events IH]; intros self log.
  - split.
    + split; [by intros (e & log' & [=])|by intros ?%elem_of_nil].
    + by intros e (log' & [=]).
  - unfold raises in *. rewrite lifecycle_cons.
    pose proof (lifecycle_step_outcome event self log) as Hstep.
    destruct event as [[|m|] [last|]];
      try (destruct Hstep as (self1 & log1 & ->);
           destruct (IH self1 log1) as [[IH1 IH2] IH3]; split;
           [split;
            [intros H; apply elem_of_cons; right; by apply IH1
            |intros [[=]|H]%elem_of_cons; by apply IH2]
           |exact IH3]).
    rewrite Hstep. split.
    + split; [intros _; by left|intros _; by eexists _, _].
    + by intros e (log' & [= <- _]).
Qed.

Lemma lifecycle_step_value event self log self' log' :
  returns (lifecycle_step self event) log self' log' →
  _value self' = _value self
  ∨ value_origin (entity_description self) [event] (_value self').
Proof.
  unfold returns, value_origin. destruct event as [d [last|]]; cbn [lifecycle_step].
  - intros [= <- _]. destruct d as [|m|]; [|by left..].
    destruct last as [sensor_data|]; [|by left].
    right; right; left. exists sensor_data. split; [by left|done].
  - destruct d as [|m|].
    + rewrite async_update_device_none. intros [= <- _]. by left.
    + rewrite async_update_device_dict.
      destruct (m !! key (entity_description self)) as [raw|] eqn:Hraw; cbn [default];
        [|intros [= <- _]; right; by left].
      destruct raw; intros [= <- _]; right;
        first [ by left
              | right; right; eexists m, _; split; [by left|done] ].
    + destruct (async_update_device_true self log) as [l Hl]. congruence.
Qed.

Lemma value_origin_mono description events1 events2 v :
  events1 ⊆ events2 →
  value_origin description events1 v → value_origin description events2 v.
Proof.
  intros Hsub [H|[(sd & Hin & H)|(m & raw & Hin & H)]]; [by left|..].
  - right; left. exists sd. split; [by apply Hsub|done].
  - right; right. exists m, raw. split; [by apply Hsub|done].
Qed.

(** X11: through any run of attach steps and refreshes that returns, the
    cached value is the one the run started with, or [None], or a persisted
    value handed to an attach step that found no data, or the extraction
    of a non-null reading stored under the entity's own key in a mapping
    that one of the refreshes saw.  It never comes from another key. *)
Theorem lifecycle_value_origin events self log self' log' :
  returns (lifecycle events self) log self' log' →
  _value self' = _value self
  ∨ value_origin (entity_description self) events (_value self').
Proof.
  revert self log. induction events as [|event events IH]; intros self log.
  - intros [= <- _]. by left.
  - unfold returns. rewrite lifecycle_cons.
    destruct (lifecycle_step self event log) as [[e|self1] log1] eqn:Hstep; [done|].
    intros Hrest. pose proof (lifecycle_step_frame _ _ _ _ _ Hstep) as (Hd & _).
    apply IH in Hrest as [Hsame|Horigin].
    + rewrite Hsame. apply lifecycle_step_value in Hstep as [?|Horigin]; [by left|].
      right. eapply value_origin_mono; [|exact Horigin].
      intros x ->%list_elem_of_singleton. by left.
    + right. rewrite Hd in Horigin. eapply value_origin_mono; [|exact Horigin].
      intros x Hx. by right.
Qed.

Lemma lifecycle_value_origin_witness :
  _value (example_entity example_description (PyStr "192.168.0.239")) = _value (example_entity example_description PyNone)
  ∨ value_origin (entity_description (example_entity example_description PyNone))
      [(DataNone, Attach (Some (mkStored (PyStr "10.0.0.1") None)));
       (DataNone, Refresh); (DataDict example_snapshot, Refresh)]
      (_value (example_entity example_description (PyStr "192.168.0.239"))).
Proof.
  apply (lifecycle_value_origin
           [(DataNone, Attach (Some (mkStored (PyStr "10.0.0.1") None)));
            (DataNone, Refresh); (DataDict example_snapshot, Refresh)]
           (example_entity example_description PyNone) []
           (example_entity example_description (PyStr "192.168.0.239")) []).
  vm_compute; reflexivity.
Defined.

Lemma async_update_device_snapshot_value self (s : option PolledDataSnapshot) log :
  ∃ self' log',
    returns (async_update_device (snapshot_data s) self) log self' log'
    ∧ entity_description self' = entity_description self
    ∧ _value self' = match s with
                     | Some m => constructed_value (Some m) (entity_description self)
                     | None => _value self
                     end.
Proof.
  unfold returns. destruct s as [m|]; cbn [snapshot_data].
  - rewrite async_update_device_dict. unfold constructed_value.
    destruct (default PyNone (m !! key (entity_description self))); by eexists _, _.
  - by exists self, log.
Qed.

(** X12: a run of refreshes over nullable snapshots always returns, and the
    value cached at its end is decided by the most recent set snapshot
    alone: [None] if that mapping has no non-null reading under the key,
    the extraction of the reading otherwise.  Earlier snapshots and the
    value cached before leave no trace; only when no snapshot of the run
    was set is the earlier value still there. *)
Theorem refresh_each_last_snapshot (snapshots : list (option PolledDataSnapshot)) self log :
  ∃ self' log',
    returns (refresh_each (snapshot_data <$> snapshots) self) log self' log'
    ∧ _value self' = match last_snapshot snapshots with
                     | Some m => constructed_value (Some m) (entity_description self)
                     | None => _value self
                     end.
Proof.
  revert self log. induction snapshots as [|s snapshots IH]; intros self log.
  - by exists self, log.
  - destruct (async_update_device_snapshot_value self s log)
      as (self1 & log1 & Hstep & Hd & Hv).
    destruct (IH self1 log1) as (self' & log' & Hrest & Hv').
    exists self', log'. split.
    + unfold returns, refresh_each in *. cbn [fmap list_fmap for_each].
      by erewrite bind_returns by exact Hstep.
    + rewrite Hv', Hd, Hv. unfold last_snapshot.
      destruct s as [m|]; cbn [omap list_omap id]; [|done].
      rewrite last_cons. by destruct (last (omap id snapshots)).
Qed.

(** X13: a refresh on a mapping wipes out what came before it.  Whatever
    attach steps and refreshes an entity went through, restoration
    included, refreshing it on a mapping gives the same entity and the
    same log records as refreshing the entity the run started from. *)
Theorem refresh_forgets_history events self log self1 log1 (m : PolledDataSnapshot) log2 :
  returns (lifecycle events self) log self1 log1 →
  async_update_device (DataDict m) self1 log2 = async_update_device (DataDict m) self log2.
Proof.
  intros (Hd & Hn & Hu)%lifecycle_keeps_identity_helper.
  rewrite !async_update_device_dict, Hd.
  unfold set_value, missing_key_record. by rewrite Hd, Hn, Hu.
Qed.

Lemma refresh_forgets_history_witness :
  async_update_device (DataDict example_snapshot)
    (async_added_to_hass DataNone (Some (mkStored (PyStr "10.0.0.1") None))
       (example_entity example_description PyNone)) []
  = async_update_device (DataDict example_snapshot)
      (example_entity example_description PyNone) [].
Proof.
  apply (refresh_forgets_history
           [(DataNone, Attach (Some (mkStored (PyStr "10.0.0.1") None)))]
           (example_entity example_description PyNone) [] _ [] example_snapshot []).
  vm_compute; reflexivity.
Defined.
